(** * Uniswap V3 SDK: [SwapQuoter.quoteCallParameters] (src/quoter.ts)

    A shallow embedding of the quote-calldata builder.  The function reads a
    route, an amount, a trade type and options, and hands a function name and
    an argument array to the ABI encoder.  What it imports from other modules
    (the hex utility, the path encoder, the ethers [Interface]) is taken as a
    parameter; the calls it makes to the two encoders are recorded, so that
    statements about "what is passed to the encoder" are statements about the
    recorded calls. *)

From Stdlib Require Import String ZArith List Bool Lia HexString.
Import ListNotations.
Local Open Scope string_scope.

(** ** Values of the host language *)

(** [BigintIsh = JSBI | string | number] (sdk-core).  A [number] is kept as
    an integer: the only number literal the source writes is [0]. *)
Inductive BigintIsh : Type :=
| BigJSBI (z : Z)
| BigString (s : string)
| BigNumber (n : Z).

(** [TradeType] (sdk-core): a two-valued enum. *)
Inductive TradeType : Type := EXACT_INPUT | EXACT_OUTPUT.

Definition TradeType_eqb (a b : TradeType) : bool :=
  match a, b with
  | EXACT_INPUT, EXACT_INPUT | EXACT_OUTPUT, EXACT_OUTPUT => true
  | _, _ => false
  end.

(** The values the source places in an argument array: strings (hex
    quantities, addresses, the packed path), a number (the fee tier) and one
    object literal. An object keeps its own string keys in insertion order,
    which is the order [Object.values] enumerates. *)
#[warnings="-register-all"] Inductive JsValue : Type :=
| JString (s : string)
| JNumber (n : Z)
| JObject (props : list (string * JsValue)).

Definition JsObject : Type := list (string * JsValue).

(** [o[k]]: the value of an own property, [None] for [undefined]. *)
Fixpoint obj_get (k : string) (o : JsObject) : option JsValue :=
  match o with
  | [] => None
  | (k', v) :: rest => if String.eqb k k' then Some v else obj_get k rest
  end.

(** [o[k] = v]: an existing key keeps its position, a new key goes last. *)
Fixpoint obj_set (k : string) (v : JsValue) (o : JsObject) : JsObject :=
  match o with
  | [] => [(k, v)]
  | (k', v') :: rest =>
      if String.eqb k k' then (k', v) :: rest else (k', v') :: obj_set k v rest
  end.

(** [delete o[k]]. *)
Fixpoint obj_delete (k : string) (o : JsObject) : JsObject :=
  match o with
  | [] => []
  | (k', v') :: rest =>
      if String.eqb k k' then obj_delete k rest else (k', v') :: obj_delete k rest
  end.

(** [Object.values(o)]. *)
Definition Object_values (o : JsObject) : list JsValue := map snd o.

(** [Object.keys(o)]. *)
Definition Object_keys (o : JsObject) : list string := map fst o.

(** Truthiness of an optional boolean ([undefined] is falsy). *)
Definition truthy (b : option bool) : bool :=
  match b with Some true => true | _ => false end.

(** [a ?? b]. *)
Definition nullish {A : Type} (a : option A) (b : A) : A :=
  match a with Some x => x | None => b end.

(** ** Data model *)

(** [FeeAmount] is a numeric enum of ./constants. *)
Definition FeeAmount : Type := Z.

Record Token : Type := { address : string }.

Record Pool : Type := { fee : FeeAmount }.

(** The part of [Route] the builder reads. *)
Record Route : Type := { pools : list Pool; tokenPath : list Token }.

(** The [Route] constructor keeps one more token than pools. *)
Definition route_wf (route : Route) : Prop :=
  length (tokenPath route) = length (pools route) + 1.

(** [CurrencyAmount<T>]: a currency reference and an integer quantity. *)
Record CurrencyAmount (T : Type) : Type := { currency : T; quotient : Z }.
Arguments currency {T} _.
Arguments quotient {T} _.

(** [QuoteOptions]: both fields are optional. *)
Record QuoteOptions : Type := {
  sqrtPriceLimitX96 : option BigintIsh;
  useQuoterV2 : option bool
}.

(** The default of the [options] parameter, [{}]. *)
Definition no_options : QuoteOptions :=
  {| sqrtPriceLimitX96 := None; useQuoterV2 := None |}.

(** [MethodParameters] of ./utils. *)
Record MethodParameters : Type := { calldata : string; value : string }.

(** An ethers [Interface] is built from an ABI descriptor. *)
Record Interface (Abi : Type) : Type := { abi : Abi }.
Arguments abi {Abi} _.

(** ** Collaborators

    The imports of quoter.ts whose code lives elsewhere: the two ABI
    artifacts, [toHex], [encodeRouteToPath] and
    [Interface.encodeFunctionData].  The two encoders may reject their
    arguments, and what they throw is an [EncodingError].

    [toHex] first converts its argument to a big integer and throws (a
    SyntaxError or a RangeError, here a [HexError]) on what is not an
    integer: [toHex_rejects x] is the error thrown on [x], if any, and
    [toHex x] is the string returned otherwise.  A big integer and the
    number 0 are integers: [toHex] returns on the quotient of line 66 and
    on the literal of lines 74 and 100. *)
Class Collaborators : Type := {
  Abi : Type;
  IQuoter_abi : Abi;
  IQuoterV2_abi : Abi;
  EncodingError : Type;
  HexError : Type;
  toHex : BigintIsh -> string;
  toHex_rejects : BigintIsh -> option HexError;
  toHex_accepts_JSBI : forall z : Z, toHex_rejects (BigJSBI z) = None;
  toHex_accepts_zero : toHex_rejects (BigNumber 0%Z) = None;
  encodeRouteToPath : Route -> bool -> EncodingError + string;
  encodeFunctionData :
    Interface Abi -> string -> list JsValue -> EncodingError + string
}.

Section Quoter.

Context {collab : Collaborators}.

(** What a call can throw. *)
Inductive Error : Type :=
| InvariantFailed (message : string)
| TypeError
| EncodingFailure (e : EncodingError)
| HexFailure (e : HexError).

(** A recorded call to one of the two encoders. *)
Inductive Call : Type :=
| Call_encodeRouteToPath (route : Route) (exactOutput : bool)
| Call_encodeFunctionData
    (iface : Interface Abi) (functionFragment : string) (values : list JsValue).

(** The state a call runs in: the static field [SwapQuoter.INTERFACE] and
    the encoder calls made so far, oldest first. *)
Record World : Type := { INTERFACE : Interface Abi; calls : list Call }.

(** [new Interface(abi)]. *)
Definition new_Interface (a : Abi) : Interface Abi := {| abi := a |}.

(** The state at load time: line 46 sets the static field to the V1
    interface. *)
Definition initial_world : World :=
  {| INTERFACE := new_Interface IQuoter_abi; calls := [] |}.

Definition record_call (c : Call) (w : World) : World :=
  {| INTERFACE := INTERFACE w; calls := calls w ++ [c] |}.

(** The calls made between [w] and a later [w']. *)
Definition new_calls (w w' : World) : list Call :=
  skipn (length (calls w)) (calls w').

Inductive Outcome (A : Type) : Type :=
| Returned (a : A)
| Thrown (e : Error).
Arguments Returned {A} _.
Arguments Thrown {A} _.

(** State and exceptions: a thrown error keeps the state reached. *)
Definition M (A : Type) : Type := World -> World * Outcome A.

Definition ret {A : Type} (a : A) : M A := fun w => (w, Returned a).

Definition throw {A : Type} (e : Error) : M A := fun w => (w, Thrown e).

Definition bind {A B : Type} (m : M A) (k : A -> M B) : M B :=
  fun w =>
    match m w with
    | (w', Returned a) => k a w'
    | (w', Thrown e) => (w', Thrown e)
    end.

Notation "x <- m ;; k" := (bind m (fun x => k))
  (at level 100, m at next level, right associativity).
Notation "m ;; k" := (bind m (fun _ => k))
  (at level 100, right associativity).

(** [this.INTERFACE]. *)
Definition this_INTERFACE : M (Interface Abi) :=
  fun w => (w, Returned (INTERFACE w)).

(** [invariant(condition, message)] of tiny-invariant. *)
Definition invariant (condition : bool) (message : string) : M unit :=
  if condition then ret tt else throw (InvariantFailed message).

(** [xs[i].prop]: reading a property of [undefined] is a [TypeError]. *)
Definition element {A : Type} (xs : list A) (i : nat) : M A :=
  match nth_error xs i with
  | Some x => ret x
  | None => throw TypeError
  end.

(** [toHex(x)]. *)
Definition call_toHex (x : BigintIsh) : M string :=
  match toHex_rejects x with
  | Some e => throw (HexFailure e)
  | None => ret (toHex x)
  end.

Definition lift_encoder (r : EncodingError + string) : Outcome string :=
  match r with
  | inl e => Thrown (EncodingFailure e)
  | inr s => Returned s
  end.

Definition call_encodeRouteToPath (route : Route) (exactOutput : bool) : M string :=
  fun w =>
    (record_call (Call_encodeRouteToPath route exactOutput) w,
     lift_encoder (encodeRouteToPath route exactOutput)).

Definition call_encodeFunctionData
    (iface : Interface Abi) (functionFragment : string) (values : list JsValue)
  : M string :=
  fun w =>
    (record_call (Call_encodeFunctionData iface functionFragment values) w,
     lift_encoder (encodeFunctionData iface functionFragment values)).

(** ** [SwapQuoter.quoteCallParameters] (quoter.ts, lines 59-102) *)
Definition quoteCallParameters {T : Type}
    (route : Route) (amount : CurrencyAmount T) (tradeType : TradeType)
    (options_arg : option QuoteOptions) : M MethodParameters :=
  let options := nullish options_arg no_options in
  let singleHop := Nat.eqb (length (pools route)) 1 in
  quoteAmount <- call_toHex (BigJSBI (quotient amount)) ;;
  swapInterface <-
    (if truthy (useQuoterV2 options)
     then ret (new_Interface IQuoterV2_abi)
     else this_INTERFACE) ;;
  calldata <-
    (if singleHop then
       pool0 <- element (pools route) 0 ;;
       limit <- call_toHex (nullish (sqrtPriceLimitX96 options) (BigNumber 0%Z)) ;;
       token0 <- element (tokenPath route) 0 ;;
       token1 <- element (tokenPath route) 1 ;;
       let quoteV2Params : JsObject :=
         [ ("amount", JString quoteAmount);
           ("fee", JNumber (fee pool0));
           ("sqrtPriceLimitX96", JString limit);
           ("tokenIn", JString (address token0));
           ("tokenOut", JString (address token1)) ] in
       let quoteV2Params :=
         if truthy (useQuoterV2 options) && TradeType_eqb tradeType EXACT_INPUT
         then obj_delete "amount"
                (obj_set "amountIn" (JString quoteAmount) quoteV2Params)
         else quoteV2Params in
       let tradeTypeFunctionName :=
         if TradeType_eqb tradeType EXACT_INPUT
         then "quoteExactInputSingle" else "quoteExactOutputSingle" in
       let quoterV1Params := Object_values quoteV2Params in
       call_encodeFunctionData swapInterface tradeTypeFunctionName
         (if truthy (useQuoterV2 options)
          then [JObject quoteV2Params] else quoterV1Params)
     else
       invariant
         (match sqrtPriceLimitX96 options with None => true | Some _ => false end)
         "MULTIHOP_PRICE_LIMIT" ;;
       path <- call_encodeRouteToPath route (TradeType_eqb tradeType EXACT_OUTPUT) ;;
       let tradeTypeFunctionName :=
         if TradeType_eqb tradeType EXACT_INPUT
         then "quoteExactInput" else "quoteExactOutput" in
       call_encodeFunctionData swapInterface tradeTypeFunctionName
         [JString path; JString quoteAmount]) ;;
  value <- call_toHex (BigNumber 0%Z) ;;
  ret {| calldata := calldata; value := value |}.

(** ** Notions used to state the properties *)

(** The interface line 68 selects. *)
Definition selected_interface (options : QuoteOptions) (w : World) : Interface Abi :=
  if truthy (useQuoterV2 options) then new_Interface IQuoterV2_abi else INTERFACE w.

(** The last two steps of every successful path: one call to the ABI
    encoder, whose output becomes [calldata], next to [value: toHex(0)]. *)
Definition encode_then_return
    (iface : Interface Abi) (functionFragment : string) (values : list JsValue)
  : M MethodParameters :=
  calldata <- call_encodeFunctionData iface functionFragment values ;;
  ret {| calldata := calldata; value := toHex (BigNumber 0%Z) |}.

(** The states reached from [w] by any number of calls of the builder, on
    any arguments. *)
Inductive reached_from (w : World) : World -> Prop :=
| reached_start : reached_from w w
| reached_call :
    forall (w' : World) (T : Type) (route : Route) (amount : CurrencyAmount T)
           (tradeType : TradeType) (options : option QuoteOptions),
      reached_from w w' ->
      reached_from w (fst (quoteCallParameters route amount tradeType options w')).

(** The function name lines 84-85 and 95 choose. *)
Definition function_name (singleHop : bool) (tradeType : TradeType) : string :=
  match singleHop, tradeType with
  | true, EXACT_INPUT => "quoteExactInputSingle"
  | true, EXACT_OUTPUT => "quoteExactOutputSingle"
  | false, EXACT_INPUT => "quoteExactInput"
  | false, EXACT_OUTPUT => "quoteExactOutput"
  end.

End Quoter.

Arguments Returned {collab A} _.
Arguments Thrown {collab A} _.
Arguments reached_from {collab} _ _.
Arguments reached_start {collab} _.
Arguments reached_call {collab} _ _ {T} _ _ _ _ _.

(** ** An executable set of collaborators

    Small stand-ins on which the model runs on concrete routes: hexadecimal
    printing, a path that lists the token addresses in hop order, and an ABI
    encoder that knows the four quote functions and prints its arguments. *)
Module Sample.

(** The value of a string of decimal digits. *)
Fixpoint decimal_value (acc : Z) (s : string) : option Z :=
  match s with
  | EmptyString => Some acc
  | String c rest =>
      let d := Z.of_nat (Ascii.nat_of_ascii c) - 48 in
      if (0 <=? d) && (d <=? 9)
      then decimal_value (10 * acc + d) rest
      else None
  end%Z.

Definition integer_of (b : BigintIsh) : option Z :=
  match b with
  | BigJSBI z => Some z
  | BigNumber n => Some n
  | BigString EmptyString => None
  | BigString s => decimal_value 0 s
  end.

Definition sample_toHex (b : BigintIsh) : string :=
  match integer_of b with
  | Some z => HexString.of_Z z
  | None => ""
  end.

Definition sample_toHex_rejects (b : BigintIsh) : option string :=
  match integer_of b with
  | Some _ => None
  | None => Some "SyntaxError"
  end.

Definition sample_encodeRouteToPath (route : Route) (exactOutput : bool)
  : string + string :=
  match pools route with
  | [] => inl "EMPTY_ROUTE"
  | _ =>
      let tokens := map address (tokenPath route) in
      inr (String.concat "/" (if exactOutput then rev tokens else tokens))
  end.

Fixpoint render (v : JsValue) : string :=
  match v with
  | JString s => s
  | JNumber n => HexString.of_Z n
  | JObject props =>
      "{" ++
      (fix fields (ps : list (string * JsValue)) : string :=
         match ps with
         | [] => ""
         | (k, x) :: rest => k ++ ":" ++ render x ++ ";" ++ fields rest
         end) props
      ++ "}"
  end.

Definition known_function (name : string) : bool :=
  existsb (String.eqb name)
    ["quoteExactInputSingle"; "quoteExactOutputSingle";
     "quoteExactInput"; "quoteExactOutput"].

Definition sample_encodeFunctionData
    (iface : Interface string) (name : string) (values : list JsValue)
  : string + string :=
  if known_function name
  then inr (abi iface ++ "." ++ name ++ "(" ++ String.concat "," (map render values) ++ ")")
  else inl "UNKNOWN_FUNCTION".

#[export] Instance collaborators : Collaborators := {|
  Abi := string;
  IQuoter_abi := "Quoter";
  IQuoterV2_abi := "QuoterV2";
  EncodingError := string;
  HexError := string;
  toHex := sample_toHex;
  toHex_rejects := sample_toHex_rejects;
  toHex_accepts_JSBI := fun _ => eq_refl;
  toHex_accepts_zero := eq_refl;
  encodeRouteToPath := sample_encodeRouteToPath;
  encodeFunctionData := sample_encodeFunctionData
|}.

Definition tokenA : Token := {| address := "0xA" |}.
Definition tokenB : Token := {| address := "0xB" |}.
Definition tokenC : Token := {| address := "0xC" |}.
Definition tokenD : Token := {| address := "0xD" |}.

Definition single_route : Route :=
  {| pools := [ {| fee := 3000%Z |} ]; tokenPath := [tokenA; tokenB] |}.

Definition two_pool_route : Route :=
  {| pools := [ {| fee := 3000%Z |}; {| fee := 500%Z |} ];
     tokenPath := [tokenA; tokenB; tokenC] |}.

Definition three_pool_route : Route :=
  {| pools := [ {| fee := 3000%Z |}; {| fee := 500%Z |}; {| fee := 10000%Z |} ];
     tokenPath := [tokenA; tokenB; tokenC; tokenD] |}.

Definition one_ether : CurrencyAmount Token :=
  {| currency := tokenA; quotient := 1000000000000000000%Z |}.

Definition one_ether_of_B : CurrencyAmount Token :=
  {| currency := tokenB; quotient := 1000000000000000000%Z |}.

Definition world0 : World := initial_world.

Definition short_route : Route :=
  {| pools := [ {| fee := 500%Z |} ]; tokenPath := [tokenA] |}.

Definition empty_route : Route := {| pools := []; tokenPath := [tokenA] |}.

(** A state in which the static field was assigned another interface. *)
Definition reassigned_world : World :=
  {| INTERFACE := new_Interface "Other"; calls := [] |}.

Definition opts (limit : option BigintIsh) (v2 : option bool) : option QuoteOptions :=
  Some {| sqrtPriceLimitX96 := limit; useQuoterV2 := v2 |}.

(** The state after a V1 single-hop call followed by a V2 multi-hop call. *)
Definition world_after_two_calls : World :=
  fst (quoteCallParameters two_pool_route one_ether EXACT_OUTPUT
         (opts None (Some true))
         (fst (quoteCallParameters single_route one_ether EXACT_INPUT None world0))).

End Sample.

(** * Properties *)

Section QuoterFacts.

Context {collab : Collaborators}.

(** ** Recorded calls *)

Lemma new_calls_same (w : World) : new_calls w w = [].
Proof. unfold new_calls. apply skipn_all. Qed.

Lemma new_calls_app (w : World) (i : Interface Abi) (cs : list Call) :
  new_calls w {| INTERFACE := i; calls := calls w ++ cs |} = cs.
Proof.
  unfold new_calls; simpl.
  induction (calls w) as [|c l IH]; simpl; [reflexivity | exact IH].
Qed.

Lemma new_calls_one (w : World) (c : Call) :
  new_calls w (record_call c w) = [c].
Proof. unfold record_call. apply new_calls_app. Qed.

Lemma new_calls_two (w : World) (c1 c2 : Call) :
  new_calls w (record_call c2 (record_call c1 w)) = [c1; c2].
Proof.
  unfold record_call; simpl. rewrite <- app_assoc. apply new_calls_app.
Qed.

(** ** Shape of a single-hop route *)

Lemma single_hop_shape (route : Route) :
  length (pools route) = 1 -> route_wf route ->
  exists p tokenIn tokenOut,
    pools route = [p] /\ tokenPath route = [tokenIn; tokenOut].
Proof.
  unfold route_wf. destruct route as [ps tp]; simpl. intros Hp Hwf.
  destruct ps as [|p [|q ps]]; try discriminate.
  rewrite Hp in Hwf.
  destruct tp as [|a [|b [|c tp]]]; try discriminate.
  exists p, a, b. split; reflexivity.
Qed.

Lemma multi_hop_not_single (route : Route) :
  1 < length (pools route) -> Nat.eqb (length (pools route)) 1 = false.
Proof. intros H. apply Nat.eqb_neq. lia. Qed.

(** ** The run of each path *)

(** [toHex] returns on a big integer and on the number 0. *)
Lemma call_toHex_JSBI (z : Z) :
  call_toHex (BigJSBI z) = ret (toHex (BigJSBI z)).
Proof. unfold call_toHex. rewrite toHex_accepts_JSBI. reflexivity. Qed.

Lemma call_toHex_zero :
  call_toHex (BigNumber 0) = ret (toHex (BigNumber 0)).
Proof. unfold call_toHex. rewrite toHex_accepts_zero. reflexivity. Qed.

Lemma call_toHex_accepted (x : BigintIsh) :
  toHex_rejects x = None -> call_toHex x = ret (toHex x).
Proof. intros H. unfold call_toHex. rewrite H. reflexivity. Qed.

Lemma call_toHex_rejected (x : BigintIsh) (e : HexError) :
  toHex_rejects x = Some e -> call_toHex x = throw (HexFailure e).
Proof. intros H. unfold call_toHex. rewrite H. reflexivity. Qed.

Ltac unfold_run :=
  unfold quoteCallParameters, nullish;
  rewrite ?call_toHex_JSBI, ?call_toHex_zero;
  unfold encode_then_return, selected_interface,
    call_encodeFunctionData, call_encodeRouteToPath, call_toHex, this_INTERFACE,
    invariant, element, bind, ret, throw, lift_encoder, nullish.

Ltac break_encoder :=
  repeat match goal with
    | |- context [toHex_rejects ?x] =>
        destruct (toHex_rejects x) eqn:?
    | |- context [encodeFunctionData ?i ?n ?v] =>
        destruct (encodeFunctionData i n v) eqn:?
    | |- context [encodeRouteToPath ?r ?b] =>
        destruct (encodeRouteToPath r b) eqn:?
    end.

(** A single-hop route against the V1 interface. *)
Lemma single_hop_v1_run (T : Type) (amount : CurrencyAmount T)
    (tradeType : TradeType) (options : option QuoteOptions) (w : World)
    (p : Pool) (tokenIn tokenOut : Token) (rest : list Token) :
  truthy (useQuoterV2 (nullish options no_options)) = false ->
  toHex_rejects (nullish (sqrtPriceLimitX96 (nullish options no_options))
                         (BigNumber 0)) = None ->
  quoteCallParameters
    {| pools := [p]; tokenPath := tokenIn :: tokenOut :: rest |}
    amount tradeType options w =
  encode_then_return (INTERFACE w) (function_name true tradeType)
    [ JString (toHex (BigJSBI (quotient amount)));
      JNumber (fee p);
      JString (toHex (nullish (sqrtPriceLimitX96 (nullish options no_options))
                              (BigNumber 0)));
      JString (address tokenIn);
      JString (address tokenOut) ] w.
Proof.
  intros Hv1 Hhex. unfold quoteCallParameters.
  rewrite call_toHex_JSBI, call_toHex_zero, (call_toHex_accepted _ Hhex), Hv1.
  unfold encode_then_return, call_encodeFunctionData, this_INTERFACE, element,
    bind, ret, lift_encoder.
  destruct tradeType; simpl; break_encoder; reflexivity.
Qed.

(** A single-hop route against the V2 interface. *)
Lemma single_hop_v2_run (T : Type) (amount : CurrencyAmount T)
    (tradeType : TradeType) (options : option QuoteOptions) (w : World)
    (p : Pool) (tokenIn tokenOut : Token) (rest : list Token) :
  truthy (useQuoterV2 (nullish options no_options)) = true ->
  toHex_rejects (nullish (sqrtPriceLimitX96 (nullish options no_options))
                         (BigNumber 0)) = None ->
  quoteCallParameters
    {| pools := [p]; tokenPath := tokenIn :: tokenOut :: rest |}
    amount tradeType options w =
  let quoteAmount := JString (toHex (BigJSBI (quotient amount))) in
  let common :=
    [ ("fee", JNumber (fee p));
      ("sqrtPriceLimitX96",
        JString (toHex (nullish (sqrtPriceLimitX96 (nullish options no_options))
                                (BigNumber 0))));
      ("tokenIn", JString (address tokenIn));
      ("tokenOut", JString (address tokenOut)) ] in
  encode_then_return (new_Interface IQuoterV2_abi) (function_name true tradeType)
    [ JObject match tradeType with
              | EXACT_INPUT => common ++ [("amountIn", quoteAmount)]
              | EXACT_OUTPUT => ("amount", quoteAmount) :: common
              end ] w.
Proof.
  intros Hv2 Hhex. unfold quoteCallParameters.
  rewrite call_toHex_JSBI, call_toHex_zero, (call_toHex_accepted _ Hhex), Hv2.
  unfold encode_then_return, call_encodeFunctionData, element,
    bind, ret, lift_encoder.
  destruct tradeType; simpl; break_encoder; reflexivity.
Qed.

(** A single-hop route with a price limit that [toHex] rejects: the error
    is thrown at line 74, before the tokens are read. *)
Lemma single_hop_rejected_run (T : Type) (amount : CurrencyAmount T)
    (tradeType : TradeType) (options : option QuoteOptions) (w : World)
    (p : Pool) (tokens : list Token) (e : HexError) :
  toHex_rejects (nullish (sqrtPriceLimitX96 (nullish options no_options))
                         (BigNumber 0)) = Some e ->
  quoteCallParameters {| pools := [p]; tokenPath := tokens |}
    amount tradeType options w =
  (w, Thrown (HexFailure e)).
Proof.
  intros Hhex. unfold quoteCallParameters.
  rewrite call_toHex_JSBI, (call_toHex_rejected _ _ Hhex).
  unfold this_INTERFACE, element, bind, ret, throw.
  destruct (truthy _); reflexivity.
Qed.

(** A route that is not single-hop, with a price limit. *)
Lemma multi_hop_limit_run (T : Type) (route : Route) (amount : CurrencyAmount T)
    (tradeType : TradeType) (options : option QuoteOptions) (w : World)
    (limit : BigintIsh) :
  Nat.eqb (length (pools route)) 1 = false ->
  sqrtPriceLimitX96 (nullish options no_options) = Some limit ->
  quoteCallParameters route amount tradeType options w =
  (w, Thrown (InvariantFailed "MULTIHOP_PRICE_LIMIT")).
Proof.
  intros Hmulti Hlimit. unfold_run. unfold nullish in Hlimit.
  rewrite Hmulti, Hlimit.
  destruct (truthy _); reflexivity.
Qed.

(** A route that is not single-hop, without a price limit. *)
Lemma multi_hop_run (T : Type) (route : Route) (amount : CurrencyAmount T)
    (tradeType : TradeType) (options : option QuoteOptions) (w : World) :
  Nat.eqb (length (pools route)) 1 = false ->
  sqrtPriceLimitX96 (nullish options no_options) = None ->
  quoteCallParameters route amount tradeType options w =
  bind (call_encodeRouteToPath route (TradeType_eqb tradeType EXACT_OUTPUT))
    (fun path =>
       encode_then_return (selected_interface (nullish options no_options) w)
         (function_name false tradeType)
         [JString path; JString (toHex (BigJSBI (quotient amount)))]) w.
Proof.
  intros Hmulti Hlimit. unfold_run. unfold nullish in Hlimit.
  rewrite Hmulti, Hlimit.
  destruct (truthy _); destruct tradeType; simpl; break_encoder; reflexivity.
Qed.

(** ** Facts about every run *)

Ltac run_cases route options tradeType :=
  unfold quoteCallParameters;
  rewrite !call_toHex_JSBI, !call_toHex_zero;
  unfold call_encodeFunctionData, call_encodeRouteToPath, this_INTERFACE,
    invariant, element, bind, ret, throw, lift_encoder;
  destruct route as [ps tp];
  destruct ps as [|p [|p' ps]]; cbn [pools tokenPath length Nat.eqb nth_error];
  [ | destruct tp as [|tokenIn [|tokenOut tp]]; cbn [nth_error] | ];
  destruct options as [[[limit|] [[|]|]]|];
  cbn [nullish sqrtPriceLimitX96 useQuoterV2 no_options truthy andb];
  rewrite ?call_toHex_zero; unfold call_toHex, ret, throw;
  destruct tradeType; cbn [TradeType_eqb INTERFACE];
  break_encoder; simpl.

(** The builder never assigns the static field. *)
Lemma INTERFACE_kept (T : Type) (route : Route) (amount : CurrencyAmount T)
    (tradeType : TradeType) (options : option QuoteOptions) (w : World) :
  INTERFACE (fst (quoteCallParameters route amount tradeType options w)) =
  INTERFACE w.
Proof. run_cases route options tradeType; reflexivity. Qed.

(** The outcome reads the state through the static field only. *)
Lemma outcome_reads_INTERFACE_only (T : Type) (route : Route)
    (amount : CurrencyAmount T) (tradeType : TradeType)
    (options : option QuoteOptions) (w1 w2 : World) :
  INTERFACE w1 = INTERFACE w2 ->
  snd (quoteCallParameters route amount tradeType options w1) =
  snd (quoteCallParameters route amount tradeType options w2).
Proof.
  destruct w1 as [i1 cs1], w2 as [i2 cs2]; simpl. intros ->.
  run_cases route options tradeType; reflexivity.
Qed.

(** Earlier calls stay recorded: a run only appends. *)
Lemma calls_extended (T : Type) (route : Route) (amount : CurrencyAmount T)
    (tradeType : TradeType) (options : option QuoteOptions) (w : World) :
  calls (fst (quoteCallParameters route amount tradeType options w)) =
  (calls w ++
   new_calls w (fst (quoteCallParameters route amount tradeType options w)))%list.
Proof.
  run_cases route options tradeType;
    rewrite ?new_calls_same, ?new_calls_one, ?new_calls_two, ?app_nil_r;
    unfold record_call; simpl; rewrite <- ?app_assoc; reflexivity.
Qed.

(** A returned calldata is what the ABI encoder gave for the one call made
    to it. *)
Lemma returned_calldata_is_encoded (T : Type) (route : Route)
    (amount : CurrencyAmount T) (tradeType : TradeType)
    (options : option QuoteOptions) (w : World) (mp : MethodParameters) :
  snd (quoteCallParameters route amount tradeType options w) = Returned mp ->
  exists iface values,
    In (Call_encodeFunctionData iface
          (function_name (Nat.eqb (length (pools route)) 1) tradeType) values)
       (new_calls w (fst (quoteCallParameters route amount tradeType options w)))
    /\ encodeFunctionData iface
         (function_name (Nat.eqb (length (pools route)) 1) tradeType) values
       = inr (calldata mp).
Proof.
  run_cases route options tradeType; intros H; try discriminate H;
    injection H as <-;
    rewrite ?new_calls_one, ?new_calls_two;
    eexists; eexists; (split; [simpl; eauto | simpl; eassumption]).
Qed.

(** ** The claims *)

(** C1. On a single-hop route with [useQuoterV2] absent or false, the one
    call to the ABI encoder passes the flat list
    (amount, fee, price limit, tokenIn, tokenOut) to the static V1
    interface: the amount is the first element, so the renaming of the
    amount key did not take place.  The call is made whenever [toHex]
    returns on the price limit; when it throws, at line 74, that error ends
    the call and nothing is passed to an encoder. *)
Theorem C1_v1_single_hop_flat_arguments
    (T : Type) (route : Route) (amount : CurrencyAmount T)
    (tradeType : TradeType) (options : option QuoteOptions) (w : World) :
  length (pools route) = 1 ->
  route_wf route ->
  truthy (useQuoterV2 (nullish options no_options)) = false ->
  exists p tokenIn tokenOut,
    pools route = [p] /\ tokenPath route = [tokenIn; tokenOut] /\
    match toHex_rejects
            (nullish (sqrtPriceLimitX96 (nullish options no_options))
                     (BigNumber 0))
    with
    | None =>
        new_calls w (fst (quoteCallParameters route amount tradeType options w)) =
        [ Call_encodeFunctionData (INTERFACE w) (function_name true tradeType)
            [ JString (toHex (BigJSBI (quotient amount)));
              JNumber (fee p);
              JString (toHex (nullish
                                (sqrtPriceLimitX96 (nullish options no_options))
                                (BigNumber 0)));
              JString (address tokenIn);
              JString (address tokenOut) ] ]
    | Some e =>
        quoteCallParameters route amount tradeType options w =
        (w, Thrown (HexFailure e))
    end.
Proof.
  intros Hone Hwf Hv1.
  destruct (single_hop_shape route Hone Hwf) as (p & tokenIn & tokenOut & Hp & Ht).
  exists p, tokenIn, tokenOut. split; [exact Hp|]. split; [exact Ht|].
  destruct route as [ps tp]; simpl in Hp, Ht; subst ps tp.
  destruct (toHex_rejects _) as [e|] eqn:Hhex.
  - apply single_hop_rejected_run. exact Hhex.
  - rewrite single_hop_v1_run by assumption.
    unfold encode_then_return, call_encodeFunctionData, bind, ret, lift_encoder.
    break_encoder; simpl; apply new_calls_one.
Qed.

(** C2. On a route of more than one pool, a present price limit makes the
    call throw the invariant error MULTIHOP_PRICE_LIMIT in the state it
    started in (no encoder was called, nothing was returned), whatever the
    trade type and the interface; with the price limit absent the call does
    not throw an invariant error. *)
Theorem C2_multi_hop_price_limit_rejected
    (T : Type) (route : Route) (amount : CurrencyAmount T)
    (tradeType : TradeType) (options : option QuoteOptions) (w : World) :
  1 < length (pools route) ->
  match sqrtPriceLimitX96 (nullish options no_options) with
  | Some _ =>
      quoteCallParameters route amount tradeType options w =
        (w, Thrown (InvariantFailed "MULTIHOP_PRICE_LIMIT"))
      /\ new_calls w (fst (quoteCallParameters route amount tradeType options w)) = []
  | None =>
      forall message,
        snd (quoteCallParameters route amount tradeType options w) <>
        Thrown (InvariantFailed message)
  end.
Proof.
  intros Hmulti. apply multi_hop_not_single in Hmulti.
  destruct (sqrtPriceLimitX96 (nullish options no_options)) as [limit|] eqn:Hlimit.
  - rewrite (multi_hop_limit_run T route amount tradeType options w limit Hmulti Hlimit).
    split; [reflexivity | apply new_calls_same].
  - intros message.
    rewrite (multi_hop_run T route amount tradeType options w Hmulti Hlimit).
    unfold encode_then_return, call_encodeFunctionData, call_encodeRouteToPath,
      bind, ret, lift_encoder.
    break_encoder; simpl; discriminate.
Qed.

(** A function name handed to the ABI encoder is the one chosen by hop
    count and trade type. *)
Lemma recorded_name_is_chosen_name
    (T : Type) (route : Route) (amount : CurrencyAmount T)
    (tradeType : TradeType) (options : option QuoteOptions) (w : World)
    (iface : Interface Abi) (name : string) (values : list JsValue) :
  In (Call_encodeFunctionData iface name values)
     (new_calls w (fst (quoteCallParameters route amount tradeType options w))) ->
  name = function_name (Nat.eqb (length (pools route)) 1) tradeType.
Proof.
  run_cases route options tradeType;
    rewrite ?new_calls_same, ?new_calls_one, ?new_calls_two;
    simpl; intros H;
    repeat match goal with
      | H : _ \/ _ |- _ => destruct H as [H|H]
      | H : False |- _ => destruct H
      | H : Call_encodeFunctionData _ _ _ = Call_encodeFunctionData _ _ _ |- _ =>
          injection H as _ H _; symmetry; exact H
      | H : Call_encodeRouteToPath _ _ = Call_encodeFunctionData _ _ _ |- _ =>
          discriminate H
      end.
Qed.

(** The ABI encoder is called with the chosen name: on a single-hop route
    as soon as the two tokens are there and [toHex] returns on the price
    limit, otherwise as soon as no price limit was given and the path
    encoder gave a path. *)
Lemma chosen_name_is_encoded (T : Type) (route : Route)
    (amount : CurrencyAmount T) (tradeType : TradeType)
    (options : option QuoteOptions) (w : World) :
  if Nat.eqb (length (pools route)) 1
  then
    2 <= length (tokenPath route) ->
    toHex_rejects (nullish (sqrtPriceLimitX96 (nullish options no_options))
                           (BigNumber 0)) = None ->
    exists iface values,
      new_calls w (fst (quoteCallParameters route amount tradeType options w)) =
      [Call_encodeFunctionData iface (function_name true tradeType) values]
  else
    sqrtPriceLimitX96 (nullish options no_options) = None ->
    forall path,
      encodeRouteToPath route (TradeType_eqb tradeType EXACT_OUTPUT) = inr path ->
      exists iface values,
        new_calls w (fst (quoteCallParameters route amount tradeType options w)) =
        [ Call_encodeRouteToPath route (TradeType_eqb tradeType EXACT_OUTPUT);
          Call_encodeFunctionData iface (function_name false tradeType) values ].
Proof.
  destruct (Nat.eqb (length (pools route)) 1) eqn:Hhops.
  - intros Htokens Hhex. apply Nat.eqb_eq in Hhops.
    destruct route as [ps tp]; simpl in Hhops, Htokens.
    destruct ps as [|p [|p' ps]]; try discriminate Hhops.
    destruct tp as [|tokenIn [|tokenOut tp]]; simpl in Htokens; try lia.
    destruct (truthy (useQuoterV2 (nullish options no_options))) eqn:Hv2;
      [ rewrite single_hop_v2_run by assumption
      | rewrite single_hop_v1_run by assumption ];
      cbv zeta; unfold encode_then_return;
      match goal with
      | |- context [call_encodeFunctionData ?i ?n ?v] => exists i, v
      end;
      unfold call_encodeFunctionData, bind, ret, lift_encoder;
      break_encoder; simpl; apply new_calls_one.
  - intros Hlimit path Hpath.
    rewrite (multi_hop_run T route amount tradeType options w Hhops Hlimit).
    unfold encode_then_return, call_encodeFunctionData, call_encodeRouteToPath,
      bind, ret, lift_encoder.
    rewrite Hpath.
    eexists; eexists. break_encoder; simpl; apply new_calls_two.
Qed.

(** C3. Whatever the route, the options and the interface, the function
    name handed to the ABI encoder is quoteExactInputSingle or
    quoteExactOutputSingle on a single-hop route and quoteExactInput or
    quoteExactOutput otherwise, by trade type: every call made to the
    encoder carries that name; the call is made, with that name, whenever
    the steps before it go through; and a returned calldata is what the
    encoder gave for that name. *)
Theorem C3_function_name_by_hops_and_trade_type
    (T : Type) (route : Route) (amount : CurrencyAmount T)
    (tradeType : TradeType) (options : option QuoteOptions) (w : World) :
  let singleHop := Nat.eqb (length (pools route)) 1 in
  let chosen :=
    match singleHop, tradeType with
    | true, EXACT_INPUT => "quoteExactInputSingle"
    | true, EXACT_OUTPUT => "quoteExactOutputSingle"
    | false, EXACT_INPUT => "quoteExactInput"
    | false, EXACT_OUTPUT => "quoteExactOutput"
    end in
  let limit :=
    nullish (sqrtPriceLimitX96 (nullish options no_options)) (BigNumber 0) in
  let reverse := TradeType_eqb tradeType EXACT_OUTPUT in
  let made :=
    new_calls w (fst (quoteCallParameters route amount tradeType options w)) in
  (forall iface name values,
      In (Call_encodeFunctionData iface name values) made -> name = chosen)
  /\
  (if singleHop
   then
     2 <= length (tokenPath route) ->
     toHex_rejects limit = None ->
     exists iface values, made = [Call_encodeFunctionData iface chosen values]
   else
     sqrtPriceLimitX96 (nullish options no_options) = None ->
     forall path,
       encodeRouteToPath route reverse = inr path ->
       exists iface values,
         made = [ Call_encodeRouteToPath route reverse;
                  Call_encodeFunctionData iface chosen values ])
  /\
  (forall mp,
      snd (quoteCallParameters route amount tradeType options w) = Returned mp ->
      exists iface values,
        In (Call_encodeFunctionData iface chosen values) made /\
        encodeFunctionData iface chosen values = inr (calldata mp)).
Proof.
  cbv zeta. split; [|split].
  - intros iface name values Hin.
    exact (recorded_name_is_chosen_name T route amount tradeType options w
             iface name values Hin).
  - pose proof (chosen_name_is_encoded T route amount tradeType options w) as H.
    destruct (Nat.eqb (length (pools route)) 1); exact H.
  - intros mp Hmp.
    exact (returned_calldata_is_encoded T route amount tradeType options w mp Hmp).
Qed.

(** C4. On a route of more than one pool without a price limit, the path
    encoder is called first, with the route and a reverse flag that is true
    exactly for an exact-output trade; the ABI encoder is then called on the
    selected interface with the two positional arguments (path, quote
    amount), and its output is the calldata returned. *)
Theorem C4_multi_hop_path_and_arguments
    (T : Type) (route : Route) (amount : CurrencyAmount T)
    (tradeType : TradeType) (options : option QuoteOptions) (w : World) :
  1 < length (pools route) ->
  sqrtPriceLimitX96 (nullish options no_options) = None ->
  exists reverse : bool,
    (reverse = true <-> tradeType = EXACT_OUTPUT) /\
    quoteCallParameters route amount tradeType options w =
      let w1 := record_call (Call_encodeRouteToPath route reverse) w in
      match encodeRouteToPath route reverse with
      | inl e => (w1, Thrown (EncodingFailure e))
      | inr path =>
          let iface :=
            if truthy (useQuoterV2 (nullish options no_options))
            then new_Interface IQuoterV2_abi else INTERFACE w in
          let name :=
            match tradeType with
            | EXACT_INPUT => "quoteExactInput"
            | EXACT_OUTPUT => "quoteExactOutput"
            end in
          let values :=
            [JString path; JString (toHex (BigJSBI (quotient amount)))] in
          (record_call (Call_encodeFunctionData iface name values) w1,
           match encodeFunctionData iface name values with
           | inl e => Thrown (EncodingFailure e)
           | inr data =>
               Returned {| calldata := data; value := toHex (BigNumber 0) |}
           end)
      end.
Proof.
  intros Hmulti Hlimit. apply multi_hop_not_single in Hmulti.
  exists (TradeType_eqb tradeType EXACT_OUTPUT). split.
  - destruct tradeType; simpl; split; intros H; congruence.
  - rewrite (multi_hop_run T route amount tradeType options w Hmulti Hlimit).
    unfold encode_then_return, selected_interface, call_encodeFunctionData,
      call_encodeRouteToPath, bind, ret, lift_encoder.
    cbv zeta. destruct tradeType; simpl; break_encoder; reflexivity.
Qed.

(** C5. On a single-hop route with [useQuoterV2] true, the one call to the
    ABI encoder passes a single argument, the parameter object, to the V2
    interface.  The object holds the pool fee, the hex price limit and the
    two token addresses under their keys; for an exact-input trade the quote
    amount is under amountIn and there is no amount key, for an exact-output
    trade it is under amount.  The call is made whenever [toHex] returns on
    the price limit; when it throws, at line 74, that error ends the call
    and nothing is passed to an encoder. *)
Theorem C5_v2_single_hop_structured_argument
    (T : Type) (route : Route) (amount : CurrencyAmount T)
    (tradeType : TradeType) (options : option QuoteOptions) (w : World) :
  length (pools route) = 1 ->
  route_wf route ->
  truthy (useQuoterV2 (nullish options no_options)) = true ->
  exists p tokenIn tokenOut,
    pools route = [p] /\ tokenPath route = [tokenIn; tokenOut] /\
    match toHex_rejects
            (nullish (sqrtPriceLimitX96 (nullish options no_options))
                     (BigNumber 0))
    with
    | Some e =>
        quoteCallParameters route amount tradeType options w =
        (w, Thrown (HexFailure e))
    | None =>
        exists params,
          new_calls w (fst (quoteCallParameters route amount tradeType options w)) =
            [ Call_encodeFunctionData (new_Interface IQuoterV2_abi)
                (function_name true tradeType) [JObject params] ] /\
          obj_get "fee" params = Some (JNumber (fee p)) /\
          obj_get "sqrtPriceLimitX96" params =
            Some (JString (toHex (nullish
                                    (sqrtPriceLimitX96 (nullish options no_options))
                                    (BigNumber 0)))) /\
          obj_get "tokenIn" params = Some (JString (address tokenIn)) /\
          obj_get "tokenOut" params = Some (JString (address tokenOut)) /\
          match tradeType with
          | EXACT_INPUT =>
              obj_get "amountIn" params =
                Some (JString (toHex (BigJSBI (quotient amount)))) /\
              obj_get "amount" params = None /\
              Object_keys params =
                ["fee"; "sqrtPriceLimitX96"; "tokenIn"; "tokenOut"; "amountIn"]
          | EXACT_OUTPUT =>
              obj_get "amount" params =
                Some (JString (toHex (BigJSBI (quotient amount)))) /\
              obj_get "amountIn" params = None /\
              Object_keys params =
                ["amount"; "fee"; "sqrtPriceLimitX96"; "tokenIn"; "tokenOut"]
          end
    end.
Proof.
  intros Hone Hwf Hv2.
  destruct (single_hop_shape route Hone Hwf) as (p & tokenIn & tokenOut & Hp & Ht).
  exists p, tokenIn, tokenOut.
  destruct route as [ps tp]; simpl in Hp, Ht; subst ps tp.
  split; [reflexivity|]. split; [reflexivity|].
  destruct (toHex_rejects _) as [e|] eqn:Hhex.
  - apply single_hop_rejected_run. exact Hhex.
  - rewrite single_hop_v2_run by assumption. cbv zeta.
    eexists. split.
    + unfold encode_then_return, call_encodeFunctionData, bind, ret, lift_encoder.
      break_encoder; simpl; apply new_calls_one.
    + destruct tradeType; simpl; repeat split; reflexivity.
Qed.

(** C6. Whenever the call returns, the [value] field of what it returns is
    [toHex(0)]. *)
Theorem C6_value_is_hex_zero
    (T : Type) (route : Route) (amount : CurrencyAmount T)
    (tradeType : TradeType) (options : option QuoteOptions) (w : World)
    (mp : MethodParameters) :
  snd (quoteCallParameters route amount tradeType options w) = Returned mp ->
  value mp = toHex (BigNumber 0).
Proof.
  run_cases route options tradeType; intros H; try discriminate H;
    injection H as <-; reflexivity.
Qed.

(** The static field is the same in every state reached by calls of the
    builder. *)
Lemma reached_from_keeps_INTERFACE (w w' : World) :
  reached_from w w' -> INTERFACE w' = INTERFACE w.
Proof.
  induction 1 as [|w' T route amount tradeType options Hreached IH].
  - reflexivity.
  - rewrite INTERFACE_kept. exact IH.
Qed.

(** C7. Any two calls with the same route, amount, trade type and options
    have the same outcome, the same calldata and value or the same error,
    whatever calls of the builder, on whatever arguments, were made between
    them. *)
Theorem C7_deterministic
    (T : Type) (route : Route) (amount : CurrencyAmount T)
    (tradeType : TradeType) (options : option QuoteOptions) (w w' : World) :
  reached_from w w' ->
  snd (quoteCallParameters route amount tradeType options w') =
  snd (quoteCallParameters route amount tradeType options w).
Proof.
  intros Hreached. apply outcome_reads_INTERFACE_only.
  apply reached_from_keeps_INTERFACE. exact Hreached.
Qed.

(** C8. Two amounts of the same integer quantity, whatever their
    currencies, give the same run: the same encoder calls and the same
    outcome. *)
Theorem C8_amount_used_through_quotient_only
    (T1 T2 : Type) (route : Route)
    (amount1 : CurrencyAmount T1) (amount2 : CurrencyAmount T2)
    (tradeType : TradeType) (options : option QuoteOptions) (w : World) :
  quotient amount1 = quotient amount2 ->
  quoteCallParameters route amount1 tradeType options w =
  quoteCallParameters route amount2 tradeType options w.
Proof.
  intros Hq. unfold quoteCallParameters. rewrite Hq. reflexivity.
Qed.

(** C9. On a route of more than one pool, a price limit supplied as zero
    (the number 0, a big integer 0 or the string 0) is rejected like any
    other: the invariant tests that the option is undefined, not its
    value. *)
Theorem C9_zero_price_limit_still_rejected
    (T : Type) (route : Route) (amount : CurrencyAmount T)
    (tradeType : TradeType) (v2 : option bool) (w : World) :
  1 < length (pools route) ->
  let rejected (zero : BigintIsh) :=
    quoteCallParameters route amount tradeType
      (Some {| sqrtPriceLimitX96 := Some zero; useQuoterV2 := v2 |}) w =
    (w, Thrown (InvariantFailed "MULTIHOP_PRICE_LIMIT")) in
  rejected (BigNumber 0) /\ rejected (BigJSBI 0) /\ rejected (BigString "0").
Proof.
  intros Hmulti. apply multi_hop_not_single in Hmulti. cbv zeta.
  repeat split; eapply multi_hop_limit_run; try exact Hmulti; reflexivity.
Qed.

(** C10. On a single-hop route, leaving the price limit out (or leaving the
    options out altogether) and supplying it as the number 0 give the same
    run, for both trade types and both interfaces. *)
Theorem C10_single_hop_omitted_limit_is_zero
    (T : Type) (route : Route) (amount : CurrencyAmount T)
    (tradeType : TradeType) (v2 : option bool) (w : World) :
  length (pools route) = 1 ->
  quoteCallParameters route amount tradeType
    (Some {| sqrtPriceLimitX96 := None; useQuoterV2 := v2 |}) w =
  quoteCallParameters route amount tradeType
    (Some {| sqrtPriceLimitX96 := Some (BigNumber 0); useQuoterV2 := v2 |}) w
  /\
  quoteCallParameters route amount tradeType None w =
  quoteCallParameters route amount tradeType
    (Some {| sqrtPriceLimitX96 := Some (BigNumber 0); useQuoterV2 := None |}) w.
Proof.
  intros Hone. unfold quoteCallParameters; simpl. rewrite Hone; simpl.
  split; reflexivity.
Qed.

(** ** Further properties of the builder *)

(** X1. A single-pool route whose token path has fewer than two tokens
    never reaches an encoder: the call throws a TypeError at the read of the
    missing token (lines 75-76), unless [toHex] has thrown on the price limit
    just before (line 74), and then that error is the one thrown. *)
Theorem X1_single_hop_short_token_path_throws
    (T : Type) (route : Route) (amount : CurrencyAmount T)
    (tradeType : TradeType) (options : option QuoteOptions) (w : World) :
  length (pools route) = 1 ->
  length (tokenPath route) < 2 ->
  quoteCallParameters route amount tradeType options w =
  (w, Thrown
        match toHex_rejects
                (nullish (sqrtPriceLimitX96 (nullish options no_options))
                         (BigNumber 0))
        with
        | None => TypeError
        | Some e => HexFailure e
        end).
Proof.
  intros Hone Hshort.
  destruct route as [ps tp]; simpl in Hone, Hshort.
  destruct ps as [|p [|p' ps]]; try discriminate Hone.
  destruct (toHex_rejects _) as [e|] eqn:Hhex.
  - apply single_hop_rejected_run. exact Hhex.
  - unfold quoteCallParameters.
    rewrite call_toHex_JSBI, (call_toHex_accepted _ Hhex).
    unfold this_INTERFACE, element, bind, ret, throw.
    destruct tp as [|tokenIn [|tokenOut tp]]; simpl in Hshort; try lia;
      destruct (truthy _); reflexivity.
Qed.

(** X2. A route without pools is not rejected by the builder: it takes the
    multi-hop path.  With a price limit the call throws
    MULTIHOP_PRICE_LIMIT; without one the route is handed to the path
    encoder, whose verdict decides what follows. *)
Theorem X2_empty_route_takes_multi_hop_path
    (T : Type) (route : Route) (amount : CurrencyAmount T)
    (tradeType : TradeType) (options : option QuoteOptions) (w : World) :
  pools route = [] ->
  match sqrtPriceLimitX96 (nullish options no_options) with
  | Some _ =>
      quoteCallParameters route amount tradeType options w =
        (w, Thrown (InvariantFailed "MULTIHOP_PRICE_LIMIT"))
  | None =>
      exists later,
        new_calls w (fst (quoteCallParameters route amount tradeType options w)) =
        Call_encodeRouteToPath route (TradeType_eqb tradeType EXACT_OUTPUT) :: later
  end.
Proof.
  intros Hempty.
  assert (Hmulti : Nat.eqb (length (pools route)) 1 = false)
    by (rewrite Hempty; reflexivity).
  destruct (sqrtPriceLimitX96 (nullish options no_options)) as [limit|] eqn:Hlimit.
  - exact (multi_hop_limit_run T route amount tradeType options w limit Hmulti Hlimit).
  - rewrite (multi_hop_run T route amount tradeType options w Hmulti Hlimit).
    unfold encode_then_return, call_encodeFunctionData, call_encodeRouteToPath,
      bind, ret, lift_encoder.
    break_encoder; simpl; rewrite ?new_calls_one, ?new_calls_two;
      eexists; reflexivity.
Qed.

(** X3. An encoding error thrown by the call is the error the last encoder
    called gave, unchanged: the builder neither catches nor rewrites it, and
    calls nothing after it. *)
Theorem X3_encoding_error_comes_from_last_call
    (T : Type) (route : Route) (amount : CurrencyAmount T)
    (tradeType : TradeType) (options : option QuoteOptions) (w : World)
    (e : EncodingError) :
  snd (quoteCallParameters route amount tradeType options w) =
    Thrown (EncodingFailure e) ->
  exists earlier last,
    new_calls w (fst (quoteCallParameters route amount tradeType options w)) =
      (earlier ++ [last])%list /\
    match last with
    | Call_encodeRouteToPath r reverse => encodeRouteToPath r reverse = inl e
    | Call_encodeFunctionData iface name values =>
        encodeFunctionData iface name values = inl e
    end.
Proof.
  run_cases route options tradeType; intros H; try discriminate H;
    injection H as <-; rewrite ?new_calls_one, ?new_calls_two;
    match goal with
    | |- exists _ _, [?c] = _ /\ _ => exists [], c
    | |- exists _ _, [?c1; ?c2] = _ /\ _ => exists [c1], c2
    end;
    (split; [reflexivity | simpl; assumption]).
Qed.

(** X4. The only invariant the call can fail is the one of line 93: an
    invariant error carries the message MULTIHOP_PRICE_LIMIT, the route is
    not single-hop, a price limit was supplied, and no encoder was called. *)
Theorem X4_invariant_error_only_from_multi_hop_limit
    (T : Type) (route : Route) (amount : CurrencyAmount T)
    (tradeType : TradeType) (options : option QuoteOptions) (w : World)
    (message : string) :
  snd (quoteCallParameters route amount tradeType options w) =
    Thrown (InvariantFailed message) ->
  message = "MULTIHOP_PRICE_LIMIT" /\
  length (pools route) <> 1 /\
  sqrtPriceLimitX96 (nullish options no_options) <> None /\
  fst (quoteCallParameters route amount tradeType options w) = w.
Proof.
  run_cases route options tradeType; intros H; try discriminate H;
    injection H as <-;
    (split; [reflexivity|]); (split; [simpl; lia|]);
    (split; [simpl; discriminate | reflexivity]).
Qed.

(** X5. A TypeError is thrown only on a single-pool route whose token path
    has fewer than two tokens, and then no encoder was called. *)
Theorem X5_type_error_only_from_short_token_path
    (T : Type) (route : Route) (amount : CurrencyAmount T)
    (tradeType : TradeType) (options : option QuoteOptions) (w : World) :
  snd (quoteCallParameters route amount tradeType options w) = Thrown TypeError ->
  length (pools route) = 1 /\
  length (tokenPath route) < 2 /\
  fst (quoteCallParameters route amount tradeType options w) = w.
Proof.
  run_cases route options tradeType; intros H; try discriminate H;
    (split; [reflexivity|]); (split; [simpl; lia | reflexivity]).
Qed.

(** X6. The calls of one run: on a single-hop route at most one call, to the
    ABI encoder, and none to the path encoder; otherwise at most one call to
    the path encoder, on the route as given, followed by at most one call to
    the ABI encoder. *)
Theorem X6_calls_of_a_run
    (T : Type) (route : Route) (amount : CurrencyAmount T)
    (tradeType : TradeType) (options : option QuoteOptions) (w : World) :
  let made :=
    new_calls w (fst (quoteCallParameters route amount tradeType options w)) in
  if Nat.eqb (length (pools route)) 1
  then made = [] \/
       exists iface name values,
         made = [Call_encodeFunctionData iface name values]
  else made = [] \/
       exists reverse,
         made = [Call_encodeRouteToPath route reverse] \/
         exists iface name values,
           made = [ Call_encodeRouteToPath route reverse;
                    Call_encodeFunctionData iface name values ].
Proof.
  cbv zeta.
  run_cases route options tradeType;
    rewrite ?new_calls_same, ?new_calls_one, ?new_calls_two;
    first
      [ left; reflexivity
      | right; eexists; eexists; eexists; reflexivity
      | right; eexists; left; reflexivity
      | right; eexists; right; eexists; eexists; eexists; reflexivity ].
Qed.

(** X7. With [useQuoterV2] true the static field [SwapQuoter.INTERFACE] is
    not read: whatever it holds, the call makes the same encoder calls and
    has the same outcome. *)
Theorem X7_v2_does_not_read_the_static_interface
    (T : Type) (route : Route) (amount : CurrencyAmount T)
    (tradeType : TradeType) (options : option QuoteOptions) (w1 w2 : World) :
  truthy (useQuoterV2 (nullish options no_options)) = true ->
  snd (quoteCallParameters route amount tradeType options w1) =
  snd (quoteCallParameters route amount tradeType options w2)
  /\
  new_calls w1 (fst (quoteCallParameters route amount tradeType options w1)) =
  new_calls w2 (fst (quoteCallParameters route amount tradeType options w2)).
Proof.
  intros Hv2. destruct w1 as [i1 cs1], w2 as [i2 cs2].
  run_cases route options tradeType; simpl in Hv2; try discriminate Hv2;
    rewrite ?new_calls_same, ?new_calls_one, ?new_calls_two;
    split; reflexivity.
Qed.

(** X8. The call never assigns the static field [SwapQuoter.INTERFACE],
    whether it returns or throws. *)
Theorem X8_static_interface_never_assigned
    (T : Type) (route : Route) (amount : CurrencyAmount T)
    (tradeType : TradeType) (options : option QuoteOptions) (w : World) :
  INTERFACE (fst (quoteCallParameters route amount tradeType options w)) =
  INTERFACE w.
Proof. apply INTERFACE_kept. Qed.

(** X9. On a single-hop route the token path is read at its first two
    tokens only: what follows them changes neither the encoder call nor the
    outcome. *)
Theorem X9_single_hop_reads_first_two_tokens
    (T : Type) (amount : CurrencyAmount T) (tradeType : TradeType)
    (options : option QuoteOptions) (w : World)
    (p : Pool) (tokenIn tokenOut : Token) (rest1 rest2 : list Token) :
  quoteCallParameters
    {| pools := [p]; tokenPath := tokenIn :: tokenOut :: rest1 |}
    amount tradeType options w =
  quoteCallParameters
    {| pools := [p]; tokenPath := tokenIn :: tokenOut :: rest2 |}
    amount tradeType options w.
Proof.
  destruct (toHex_rejects
              (nullish (sqrtPriceLimitX96 (nullish options no_options))
                       (BigNumber 0))) as [e|] eqn:Hhex.
  - rewrite !(single_hop_rejected_run _ _ _ _ _ _ _ e Hhex). reflexivity.
  - destruct (truthy (useQuoterV2 (nullish options no_options))) eqn:Hv2.
    + rewrite !single_hop_v2_run by assumption. reflexivity.
    + rewrite !single_hop_v1_run by assumption. reflexivity.
Qed.

(** X10. On a single-hop route with its two tokens, if [toHex] returns on
    the price limit, exactly one call is made, to the ABI encoder, and its
    verdict is the outcome: the data it gives is returned as calldata next
    to the value [toHex(0)], the error it gives is thrown unchanged.  If
    [toHex] throws on the price limit, that error is thrown and no call is
    made. *)
Theorem X10_single_hop_outcome_is_encoder_verdict
    (T : Type) (route : Route) (amount : CurrencyAmount T)
    (tradeType : TradeType) (options : option QuoteOptions) (w : World) :
  length (pools route) = 1 ->
  route_wf route ->
  match toHex_rejects
          (nullish (sqrtPriceLimitX96 (nullish options no_options))
                   (BigNumber 0))
  with
  | Some e =>
      quoteCallParameters route amount tradeType options w =
      (w, Thrown (HexFailure e))
  | None =>
      exists iface name values,
        new_calls w (fst (quoteCallParameters route amount tradeType options w)) =
          [Call_encodeFunctionData iface name values] /\
        snd (quoteCallParameters route amount tradeType options w) =
          match encodeFunctionData iface name values with
          | inl e => Thrown (EncodingFailure e)
          | inr data =>
              Returned {| calldata := data; value := toHex (BigNumber 0) |}
          end
  end.
Proof.
  intros Hone Hwf.
  destruct (single_hop_shape route Hone Hwf) as (p & tokenIn & tokenOut & Hp & Ht).
  destruct route as [ps tp]; simpl in Hp, Ht; subst ps tp.
  destruct (toHex_rejects _) as [e|] eqn:Hhex.
  - apply single_hop_rejected_run. exact Hhex.
  - destruct (truthy (useQuoterV2 (nullish options no_options))) eqn:Hv2;
      [ rewrite single_hop_v2_run by assumption
      | rewrite single_hop_v1_run by assumption ];
      cbv zeta; unfold encode_then_return;
      match goal with
      | |- context [call_encodeFunctionData ?i ?n ?v] => exists i, n, v
      end;
      unfold call_encodeFunctionData, bind, ret, lift_encoder;
      break_encoder; simpl; (split; [apply new_calls_one | reflexivity]).
Qed.

End QuoterFacts.

(** * The properties on concrete routes *)

Import Sample.

(** The scenarios of the specification, run on the sample collaborators. *)

Example single_hop_exact_input_v1 :
  quoteCallParameters single_route one_ether EXACT_INPUT None world0 =
  ( {| INTERFACE := new_Interface "Quoter";
       calls :=
         [ Call_encodeFunctionData (new_Interface "Quoter") "quoteExactInputSingle"
             [ JString "0xde0b6b3a7640000"; JNumber 3000; JString "0x0";
               JString "0xA"; JString "0xB" ] ] |},
    Returned
      {| calldata := "Quoter.quoteExactInputSingle(0xde0b6b3a7640000,0xbb8,0x0,0xA,0xB)";
         value := "0x0" |} ).
Proof. reflexivity. Qed.

Example single_hop_exact_input_v2 :
  new_calls world0
    (fst (quoteCallParameters single_route one_ether EXACT_INPUT
            (opts None (Some true)) world0)) =
  [ Call_encodeFunctionData (new_Interface "QuoterV2") "quoteExactInputSingle"
      [ JObject
          [ ("fee", JNumber 3000); ("sqrtPriceLimitX96", JString "0x0");
            ("tokenIn", JString "0xA"); ("tokenOut", JString "0xB");
            ("amountIn", JString "0xde0b6b3a7640000") ] ] ].
Proof. reflexivity. Qed.

Example three_pools_exact_output :
  new_calls world0
    (fst (quoteCallParameters three_pool_route one_ether EXACT_OUTPUT None world0)) =
  [ Call_encodeRouteToPath three_pool_route true;
    Call_encodeFunctionData (new_Interface "Quoter") "quoteExactOutput"
      [ JString "0xD/0xC/0xB/0xA"; JString "0xde0b6b3a7640000" ] ].
Proof. reflexivity. Qed.

Example two_pools_with_price_limit :
  quoteCallParameters two_pool_route one_ether EXACT_INPUT
    (opts (Some (BigNumber 5)) None) world0 =
  (world0, Thrown (InvariantFailed "MULTIHOP_PRICE_LIMIT")).
Proof. reflexivity. Qed.

(** A single-hop route whose token path is too short stops at the read of
    the missing token. *)
Example short_token_path :
  quoteCallParameters {| pools := [ {| fee := 500%Z |} ]; tokenPath := [tokenA] |}
    one_ether EXACT_INPUT None world0 =
  (world0, Thrown TypeError).
Proof. reflexivity. Qed.

(** A price limit that is not an integer: [toHex] throws at line 74, before
    the tokens are read and before any encoder is called. *)
Example price_limit_not_an_integer :
  quoteCallParameters single_route one_ether EXACT_INPUT
    (opts (Some (BigString "abc")) None) world0 =
  (world0, Thrown (HexFailure "SyntaxError")).
Proof. reflexivity. Qed.

Example price_limit_not_an_integer_short_path :
  quoteCallParameters short_route one_ether EXACT_INPUT
    (opts (Some (BigString "abc")) (Some true)) world0 =
  (world0, Thrown (HexFailure "SyntaxError")).
Proof. reflexivity. Qed.

(** A price limit given as a decimal string. *)
Example price_limit_as_string :
  new_calls world0
    (fst (quoteCallParameters single_route one_ether EXACT_OUTPUT
            (opts (Some (BigString "255")) None) world0)) =
  [ Call_encodeFunctionData (new_Interface "Quoter") "quoteExactOutputSingle"
      [ JString "0xde0b6b3a7640000"; JNumber 3000; JString "0xff";
        JString "0xA"; JString "0xB" ] ].
Proof. reflexivity. Qed.

(** An encoder that rejects its arguments: the error passes through. *)
Example empty_route_path_error :
  quoteCallParameters {| pools := []; tokenPath := [tokenA] |}
    one_ether EXACT_INPUT None world0 =
  ( record_call
      (Call_encodeRouteToPath {| pools := []; tokenPath := [tokenA] |} false) world0,
    Thrown (EncodingFailure "EMPTY_ROUTE") ).
Proof. reflexivity. Qed.

(** C1 at the V1 scenario: fee 3000, exact input, 10^18, no options. *)
Lemma C1_v1_single_hop_flat_arguments_witness :
  length (pools single_route) = 1 /\
  route_wf single_route /\
  truthy (useQuoterV2 (nullish None no_options)) = false /\
  new_calls world0
    (fst (quoteCallParameters single_route one_ether EXACT_INPUT None world0)) =
  [ Call_encodeFunctionData (new_Interface "Quoter") "quoteExactInputSingle"
      [ JString "0xde0b6b3a7640000"; JNumber 3000; JString "0x0";
        JString "0xA"; JString "0xB" ] ].
Proof.
  split; [reflexivity|]. split; [reflexivity|]. split; [reflexivity|].
  destruct (C1_v1_single_hop_flat_arguments Token single_route one_ether
              EXACT_INPUT None world0 eq_refl eq_refl eq_refl)
    as (p & tokenIn & tokenOut & Hp & Ht & Hcalls).
  injection Hp as <-. injection Ht as <- <-. exact Hcalls.
Defined.

(** C2 on two pools with the price limit 5, exact output, V2. *)
Lemma C2_multi_hop_price_limit_rejected_witness :
  1 < length (pools two_pool_route) /\
  quoteCallParameters two_pool_route one_ether EXACT_OUTPUT
    (opts (Some (BigNumber 5)) (Some true)) world0 =
  (world0, Thrown (InvariantFailed "MULTIHOP_PRICE_LIMIT")).
Proof.
  assert (Hmulti : 1 < length (pools two_pool_route)) by (simpl; lia).
  split; [exact Hmulti|].
  pose proof (C2_multi_hop_price_limit_rejected Token two_pool_route one_ether
                EXACT_OUTPUT (opts (Some (BigNumber 5)) (Some true)) world0 Hmulti)
    as H.
  simpl in H. exact (proj1 H).
Defined.

(** C3 on three pools, exact output: the call recorded carries the name
    quoteExactOutput, it is made, and the calldata returned is the
    encoder's for that name. *)
Lemma C3_function_name_by_hops_and_trade_type_witness :
  In (Call_encodeFunctionData (new_Interface "Quoter") "quoteExactOutput"
        [ JString "0xD/0xC/0xB/0xA"; JString "0xde0b6b3a7640000" ])
     (new_calls world0
        (fst (quoteCallParameters three_pool_route one_ether EXACT_OUTPUT None world0)))
  /\ "quoteExactOutput" =
     function_name (Nat.eqb (length (pools three_pool_route)) 1) EXACT_OUTPUT
  /\ (exists iface values,
        new_calls world0
          (fst (quoteCallParameters three_pool_route one_ether EXACT_OUTPUT
                  None world0)) =
        [ Call_encodeRouteToPath three_pool_route true;
          Call_encodeFunctionData iface "quoteExactOutput" values ])
  /\ (exists iface values,
        In (Call_encodeFunctionData iface "quoteExactOutput" values)
           (new_calls world0
              (fst (quoteCallParameters three_pool_route one_ether EXACT_OUTPUT
                      None world0))) /\
        encodeFunctionData iface "quoteExactOutput" values =
        inr "Quoter.quoteExactOutput(0xD/0xC/0xB/0xA,0xde0b6b3a7640000)").
Proof.
  assert (Hin :
    In (Call_encodeFunctionData (new_Interface "Quoter") "quoteExactOutput"
          [ JString "0xD/0xC/0xB/0xA"; JString "0xde0b6b3a7640000" ])
       (new_calls world0
          (fst (quoteCallParameters three_pool_route one_ether EXACT_OUTPUT
                  None world0)))) by (simpl; right; left; reflexivity).
  pose proof (C3_function_name_by_hops_and_trade_type Token three_pool_route
                one_ether EXACT_OUTPUT None world0) as H.
  cbv zeta in H. destruct H as (Hrecorded & Hmade & Hreturned).
  split; [exact Hin|]. split; [|split].
  - exact (Hrecorded _ _ _ Hin).
  - exact (Hmade eq_refl "0xD/0xC/0xB/0xA" eq_refl).
  - exact (Hreturned
             {| calldata := "Quoter.quoteExactOutput(0xD/0xC/0xB/0xA,0xde0b6b3a7640000)";
                value := "0x0" |} eq_refl).
Defined.

(** C4 on three pools, exact output, V2. *)
Lemma C4_multi_hop_path_and_arguments_witness :
  1 < length (pools three_pool_route) /\
  quoteCallParameters three_pool_route one_ether EXACT_OUTPUT
    (opts None (Some true)) world0 =
  ( {| INTERFACE := new_Interface "Quoter";
       calls :=
         [ Call_encodeRouteToPath three_pool_route true;
           Call_encodeFunctionData (new_Interface "QuoterV2") "quoteExactOutput"
             [ JString "0xD/0xC/0xB/0xA"; JString "0xde0b6b3a7640000" ] ] |},
    Returned
      {| calldata := "QuoterV2.quoteExactOutput(0xD/0xC/0xB/0xA,0xde0b6b3a7640000)";
         value := "0x0" |} ).
Proof.
  assert (Hmulti : 1 < length (pools three_pool_route)) by (simpl; lia).
  split; [exact Hmulti|].
  destruct (C4_multi_hop_path_and_arguments Token three_pool_route one_ether
              EXACT_OUTPUT (opts None (Some true)) world0 Hmulti eq_refl)
    as (reverse & Hreverse & Hrun).
  rewrite Hrun. rewrite (proj2 Hreverse eq_refl). reflexivity.
Defined.

(** C5 at the V2 scenario: fee 3000, exact input, 10^18. *)
Lemma C5_v2_single_hop_structured_argument_witness :
  length (pools single_route) = 1 /\
  route_wf single_route /\
  exists params,
    new_calls world0
      (fst (quoteCallParameters single_route one_ether EXACT_INPUT
              (opts None (Some true)) world0)) =
    [ Call_encodeFunctionData (new_Interface "QuoterV2") "quoteExactInputSingle"
        [JObject params] ] /\
    obj_get "amountIn" params = Some (JString "0xde0b6b3a7640000") /\
    obj_get "amount" params = None.
Proof.
  split; [reflexivity|]. split; [reflexivity|].
  destruct (C5_v2_single_hop_structured_argument Token single_route one_ether
              EXACT_INPUT (opts None (Some true)) world0 eq_refl eq_refl eq_refl)
    as (p & tokenIn & tokenOut & _ & _ & Hcall).
  change (toHex_rejects
            (nullish
               (sqrtPriceLimitX96
                  (nullish (opts None (Some true)) no_options))
               (BigNumber 0))) with (@None string) in Hcall.
  destruct Hcall as (params & Hcalls & _ & _ & _ & _ & Hin & Hno & _).
  exists params. split; [exact Hcalls|]. split; [exact Hin | exact Hno].
Defined.

(** C6 at the V1 scenario. *)
Lemma C6_value_is_hex_zero_witness :
  snd (quoteCallParameters single_route one_ether EXACT_INPUT None world0) =
    Returned
      {| calldata := "Quoter.quoteExactInputSingle(0xde0b6b3a7640000,0xbb8,0x0,0xA,0xB)";
         value := "0x0" |}
  /\ "0x0" = toHex (BigNumber 0).
Proof.
  split; [reflexivity|].
  exact (C6_value_is_hex_zero Token single_route one_ether EXACT_INPUT None world0
           {| calldata := "Quoter.quoteExactInputSingle(0xde0b6b3a7640000,0xbb8,0x0,0xA,0xB)";
              value := "0x0" |} eq_refl).
Defined.

(** C7 on the V1 single-hop call, made first and again after a V2
    multi-hop call. *)
Lemma C7_deterministic_witness :
  reached_from world0 world_after_two_calls /\
  snd (quoteCallParameters single_route one_ether EXACT_INPUT None
         world_after_two_calls) =
  snd (quoteCallParameters single_route one_ether EXACT_INPUT None world0).
Proof.
  assert (Hreached : reached_from world0 world_after_two_calls).
  { unfold world_after_two_calls.
    apply reached_call. apply reached_call. apply reached_start. }
  split; [exact Hreached|].
  exact (C7_deterministic Token single_route one_ether EXACT_INPUT None
           world0 world_after_two_calls Hreached).
Defined.

(** C8 on 10^18 of token A and 10^18 of token B. *)
Lemma C8_amount_used_through_quotient_only_witness :
  currency one_ether <> currency one_ether_of_B /\
  quotient one_ether = quotient one_ether_of_B /\
  quoteCallParameters single_route one_ether EXACT_INPUT None world0 =
  quoteCallParameters single_route one_ether_of_B EXACT_INPUT None world0.
Proof.
  split; [discriminate|]. split; [reflexivity|].
  exact (C8_amount_used_through_quotient_only Token Token single_route
           one_ether one_ether_of_B EXACT_INPUT None world0 eq_refl).
Defined.

(** C9 on two pools. *)
Lemma C9_zero_price_limit_still_rejected_witness :
  1 < length (pools two_pool_route) /\
  quoteCallParameters two_pool_route one_ether EXACT_INPUT
    (opts (Some (BigNumber 0%Z)) None) world0 =
  (world0, Thrown (InvariantFailed "MULTIHOP_PRICE_LIMIT")).
Proof.
  assert (Hmulti : 1 < length (pools two_pool_route)) by (simpl; lia).
  split; [exact Hmulti|].
  exact (proj1 (C9_zero_price_limit_still_rejected Token two_pool_route one_ether
                  EXACT_INPUT None world0 Hmulti)).
Defined.

(** C10 on the single-hop route, exact output, V2. *)
Lemma C10_single_hop_omitted_limit_is_zero_witness :
  length (pools single_route) = 1 /\
  quoteCallParameters single_route one_ether EXACT_OUTPUT
    (opts None (Some true)) world0 =
  quoteCallParameters single_route one_ether EXACT_OUTPUT
    (opts (Some (BigNumber 0)) (Some true)) world0.
Proof.
  split; [reflexivity|].
  exact (proj1 (C10_single_hop_omitted_limit_is_zero Token single_route one_ether
                  EXACT_OUTPUT (Some true) world0 eq_refl)).
Defined.

(** X1 on a single pool with one token. *)
Lemma X1_single_hop_short_token_path_throws_witness :
  length (pools short_route) = 1 /\
  length (tokenPath short_route) < 2 /\
  quoteCallParameters short_route one_ether EXACT_OUTPUT
    (opts (Some (BigNumber 7)) (Some true)) world0 =
  (world0, Thrown TypeError).
Proof.
  assert (Hshort : length (tokenPath short_route) < 2) by (simpl; lia).
  split; [reflexivity|]. split; [exact Hshort|].
  exact (X1_single_hop_short_token_path_throws Token short_route one_ether
           EXACT_OUTPUT (opts (Some (BigNumber 7)) (Some true)) world0
           eq_refl Hshort).
Defined.

(** X2 on the route without pools, no price limit. *)
Lemma X2_empty_route_takes_multi_hop_path_witness :
  pools empty_route = [] /\
  exists later,
    new_calls world0
      (fst (quoteCallParameters empty_route one_ether EXACT_INPUT None world0)) =
    Call_encodeRouteToPath empty_route false :: later.
Proof.
  split; [reflexivity|].
  exact (X2_empty_route_takes_multi_hop_path Token empty_route one_ether
           EXACT_INPUT None world0 eq_refl).
Defined.

(** X3 on the route without pools, which the sample path encoder rejects. *)
Lemma X3_encoding_error_comes_from_last_call_witness :
  snd (quoteCallParameters empty_route one_ether EXACT_INPUT None world0) =
    Thrown (EncodingFailure "EMPTY_ROUTE") /\
  exists earlier last,
    new_calls world0
      (fst (quoteCallParameters empty_route one_ether EXACT_INPUT None world0)) =
      (earlier ++ [last])%list /\
    match last with
    | Call_encodeRouteToPath r reverse =>
        encodeRouteToPath r reverse = inl "EMPTY_ROUTE"
    | Call_encodeFunctionData iface name values =>
        encodeFunctionData iface name values = inl "EMPTY_ROUTE"
    end.
Proof.
  split; [reflexivity|].
  exact (X3_encoding_error_comes_from_last_call Token empty_route one_ether
           EXACT_INPUT None world0 "EMPTY_ROUTE" eq_refl).
Defined.

(** X4 on two pools with the price limit 5. *)
Lemma X4_invariant_error_only_from_multi_hop_limit_witness :
  snd (quoteCallParameters two_pool_route one_ether EXACT_INPUT
         (opts (Some (BigNumber 5)) None) world0) =
    Thrown (InvariantFailed "MULTIHOP_PRICE_LIMIT") /\
  length (pools two_pool_route) <> 1 /\
  fst (quoteCallParameters two_pool_route one_ether EXACT_INPUT
         (opts (Some (BigNumber 5)) None) world0) = world0.
Proof.
  split; [reflexivity|].
  destruct (X4_invariant_error_only_from_multi_hop_limit Token two_pool_route
              one_ether EXACT_INPUT (opts (Some (BigNumber 5)) None) world0
              "MULTIHOP_PRICE_LIMIT" eq_refl)
    as (_ & Hmulti & _ & Hworld).
  split; [exact Hmulti | exact Hworld].
Defined.

(** X5 on a single pool with one token. *)
Lemma X5_type_error_only_from_short_token_path_witness :
  snd (quoteCallParameters short_route one_ether EXACT_INPUT None world0) =
    Thrown TypeError /\
  length (pools short_route) = 1 /\
  length (tokenPath short_route) < 2 /\
  fst (quoteCallParameters short_route one_ether EXACT_INPUT None world0) = world0.
Proof.
  split; [reflexivity|].
  exact (X5_type_error_only_from_short_token_path Token short_route one_ether
           EXACT_INPUT None world0 eq_refl).
Defined.

(** X7 on the single-hop route, before and after the static field was
    assigned. *)
Lemma X7_v2_does_not_read_the_static_interface_witness :
  INTERFACE world0 <> INTERFACE reassigned_world /\
  truthy (useQuoterV2 (nullish (opts None (Some true)) no_options)) = true /\
  snd (quoteCallParameters single_route one_ether EXACT_INPUT
         (opts None (Some true)) world0) =
  snd (quoteCallParameters single_route one_ether EXACT_INPUT
         (opts None (Some true)) reassigned_world).
Proof.
  split; [discriminate|]. split; [reflexivity|].
  exact (proj1 (X7_v2_does_not_read_the_static_interface Token single_route
                  one_ether EXACT_INPUT (opts None (Some true))
                  world0 reassigned_world eq_refl)).
Defined.

(** X10 on the single-hop route, exact output, V1. *)
Lemma X10_single_hop_outcome_is_encoder_verdict_witness :
  length (pools single_route) = 1 /\
  route_wf single_route /\
  exists iface name values,
    new_calls world0
      (fst (quoteCallParameters single_route one_ether EXACT_OUTPUT None world0)) =
      [Call_encodeFunctionData iface name values] /\
    snd (quoteCallParameters single_route one_ether EXACT_OUTPUT None world0) =
      match encodeFunctionData iface name values with
      | inl e => Thrown (EncodingFailure e)
      | inr data =>
          Returned {| calldata := data; value := toHex (BigNumber 0) |}
      end.
Proof.
  split; [reflexivity|]. split; [reflexivity|].
  exact (X10_single_hop_outcome_is_encoder_verdict Token single_route one_ether
           EXACT_OUTPUT None world0 eq_refl eq_refl).
Defined.
